(** * nano-node-rpc: the NanoClient request/response layer

    A shallow embedding of [src/client/nano-client.ts].  The client holds a
    node address and two header objects, exposes one method per RPC action,
    and funnels every method through [_send], which serialises an envelope
    with [_buildRPCBody] and hands it to [axios.request].

    Conventions of the embedding:
    - a JavaScript object used as a string-keyed mapping is a [gmap string _];
    - JSON text is represented by the document it denotes ([json]), so that
      "the request body has field f" is a lookup in that document;
    - code that may throw returns a [completion];
    - the instance fields, the requests handed to the transport and the
      promise under construction are threaded through a small state monad;
    - [axios.request] and [JSON.parse], which live outside the repository,
      are parameters of the client section. *)

From stdpp Require Import gmap strings list fin_maps.

#[local] Open Scope string_scope.
#[local] Open Scope Z_scope.
Set Warnings "-register-all".

(** ** JavaScript values *)

(** A JSON document: what [JSON.parse] can yield and what a JSON text
    denotes.  Numbers are the integral ones; the client never computes with
    them. *)
Inductive json : Type :=
| JNull
| JBool (b : bool)
| JNum (n : Z)
| JStr (s : string)
| JArr (items : list json)
| JObj (fields : gmap string json).

(** The values a caller can pass as parameters.  Besides the JSON-like ones
    there are [undefined], BigInt primitives, and [VCircular]: a reference to
    an object from which the reference itself is reachable again (a cycle in
    the object graph, which a finite tree cannot unfold). *)
Inductive value : Type :=
| VUndefined
| VNull
| VBool (b : bool)
| VNum (n : Z)
| VStr (s : string)
| VBigInt (n : Z)
| VCircular
| VArr (items : list value)
| VObj (props : gmap string value).

(** Things that are thrown or used as rejection values. *)
Inductive js_error : Type :=
| TypeError
| SyntaxError
| Error (e : js_error).          (* new Error(e) *)

Inductive completion (A : Type) : Type :=
| Normal (a : A)
| Throw (e : js_error).
Arguments Normal {A} a.
Arguments Throw {A} e.

#[global] Instance completion_ret : MRet completion := @Normal.
#[global] Instance completion_bind : MBind completion := fun A B f c =>
  match c with
  | Normal a => f a
  | Throw e => Throw e
  end.
#[global] Instance completion_fmap : FMap completion := fun A B f c =>
  match c with
  | Normal a => Normal (f a)
  | Throw e => Throw e
  end.

Definition is_normal {A} (c : completion A) : bool :=
  match c with Normal _ => true | Throw _ => false end.

(** try { body } catch (e) { handler(e) } *)
Definition try_catch {A} (body : completion A) (handler : js_error -> completion A)
  : completion A :=
  match body with
  | Normal a => Normal a
  | Throw e => handler e
  end.

(** ** JSON.stringify

    [SerializeJSONProperty] follows the ECMAScript operation of that name: a
    property holding [undefined] is left out of an object and becomes [null]
    in an array; a BigInt or a circular reference throws a TypeError.  The
    result [None] stands for "no JSON text" ([undefined]). *)
Definition property_of (r : completion (option json)) : option json :=
  match r with
  | Normal (Some j) => Some j
  | _ => None
  end.

Fixpoint SerializeJSONProperty (v : value) : completion (option json) :=
  match v with
  | VUndefined => Normal None
  | VNull => Normal (Some JNull)
  | VBool b => Normal (Some (JBool b))
  | VNum n => Normal (Some (JNum n))
  | VStr s => Normal (Some (JStr s))
  | VBigInt _ => Throw TypeError
  | VCircular => Throw TypeError
  | VArr items =>
      elems ← mapM (fun x => default JNull <$> SerializeJSONProperty x) items;
      Normal (Some (JArr elems))
  | VObj props =>
      let rs := SerializeJSONProperty <$> props in
      if bool_decide (map_Forall (fun _ r => is_normal r = true) rs)
      then Normal (Some (JObj (omap property_of rs)))
      else Throw TypeError
  end.

(** [JSON.stringify(o)] for an object [o]: always a text, or a throw. *)
Definition JSON_stringify (o : gmap string value) : completion json :=
  r ← SerializeJSONProperty (VObj o);
  Normal (default JNull r).

(** ** Property access, truthiness, object helpers *)

(** [v.key] on a decoded response value; [None] is [undefined].  Reading a
    property of [null] throws; primitives and arrays have no own property
    with a non-index name. *)
Definition get_member (v : json) (key : string) : completion (option json) :=
  match v with
  | JNull => Throw TypeError
  | JObj fields => Normal (fields !! key)
  | _ => Normal None
  end.

(** ToBoolean. *)
Definition truthy (v : option json) : bool :=
  match v with
  | None => false
  | Some JNull => false
  | Some (JBool b) => b
  | Some (JNum n) => negb (n =? 0)
  | Some (JStr s) => negb (String.eqb s "")
  | Some (JArr _) => true
  | Some (JObj _) => true
  end.

(** [Object.assign(target, source)]: the contents of [target] afterwards
    (the entries of [source] win). *)
Definition Object_assign {V} (target source : gmap string V) : gmap string V :=
  source ∪ target.

(** [{ ...literal, ...source }]: spreading [undefined] adds nothing. *)
Definition spread (source : option (gmap string value)) (literal : gmap string value)
  : gmap string value :=
  Object_assign literal (default ∅ source).

(** A parameter with a default initialiser: [p = d]. *)
Definition default_param (d arg : value) : value :=
  match arg with
  | VUndefined => d
  | _ => arg
  end.

(** ** Promises and the transport *)

Module AxiosRequestConfig.
Record t : Type := mk
  { method : string;
    url : option string;
    data : json;                       (* the JSON text of the body *)
    headers : gmap string string }.
End AxiosRequestConfig.

Module AxiosResponse.
Record t : Type := mk
  { data : json;                       (* a decoded value, or a raw string *)
    status : Z }.
End AxiosResponse.

(** A rejection value is untyped in the source ([any]). *)
Inductive reason : Type :=
| RData (d : json)                       (* a response body *)
| RError (e : js_error)                  (* something that was thrown *)
| RTransport (message : string).         (* whatever axios rejects with *)

(** A promise is represented by the state it ends up in. *)
Inductive Promise (A : Type) : Type :=
| Pending
| Fulfilled (v : A)
| Rejected (r : reason).
Arguments Pending {A}.
Arguments Fulfilled {A} v.
Arguments Rejected {A} r.

(** ** The client instance and the state a call runs in *)

Record NanoClient : Type := mkNanoClient
  { nodeAddress : option string;         (* URL of data source *)
    requestHeaders : gmap string string; (* custom HTTP headers *)
    defaultHeaders : gmap string string  (* HTTP header defaults *) }.

Module Options.
Record t : Type := mk
  { url : option string;
    requestHeaders : option (gmap string string) }.
End Options.

Record world : Type := mkWorld
  { this : NanoClient;
    network : list AxiosRequestConfig.t; (* requests handed to axios, oldest first *)
    promise : Promise json               (* the promise under construction *) }.

(** Computations over [world] that may throw; effects made before a throw
    stay. *)
Definition M (A : Type) : Type := world -> completion A * world.

#[global] Instance M_ret : MRet M := fun A a w => (Normal a, w).
#[global] Instance M_bind : MBind M := fun A B f m w =>
  match m w with
  | (Normal a, w') => f a w'
  | (Throw e, w') => (Throw e, w')
  end.

Definition lift {A} (c : completion A) : M A := fun w => (c, w).

Definition get_nodeAddress : M (option string) :=
  fun w => (Normal (nodeAddress (this w)), w).
Definition get_requestHeaders : M (gmap string string) :=
  fun w => (Normal (requestHeaders (this w)), w).

(** [Object.assign(this.defaultHeaders, source)]: the object held in
    [defaultHeaders] is updated in place and returned. *)
Definition Object_assign_defaultHeaders (source : gmap string string)
  : M (gmap string string) :=
  fun w =>
    let c := this w in
    let merged := Object_assign (defaultHeaders c) source in
    (Normal merged,
     mkWorld (mkNanoClient (nodeAddress c) (requestHeaders c) merged)
             (network w) (promise w)).

(** The [resolve] and [reject] functions of the promise under construction:
    only the first settlement counts. *)
Definition settle (p : Promise json) : M unit :=
  fun w =>
    (Normal tt,
     match promise w with
     | Pending => mkWorld (this w) (network w) p
     | _ => w
     end).
Definition resolve (v : json) : M unit := settle (Fulfilled v).
Definition reject (r : reason) : M unit := settle (Rejected r).

(** [new Promise(executor)]: the executor runs at once; if it throws, the
    promise is rejected with what was thrown.  The constructor itself
    returns normally. *)
Definition new_Promise (executor : M unit) : M (Promise json) :=
  fun w =>
    let w0 := mkWorld (this w) (network w) Pending in
    match executor w0 with
    | (Normal _, w1) => (Normal (promise w1), w1)
    | (Throw e, w1) =>
        let w2 := snd (reject (RError e) w1) in
        (Normal (promise w2), w2)
    end.

(** [p.then(onFulfilled)]: the derived promise is rejected when the callback
    throws. *)
Definition Promise_then {A} (p : Promise A) (onFulfilled : A -> M unit)
  : M (Promise unit) :=
  match p with
  | Pending => mret Pending
  | Rejected r => mret (Rejected r)
  | Fulfilled v =>
      fun w =>
        match onFulfilled v w with
        | (Normal _, w') => (Normal (Fulfilled tt), w')
        | (Throw e, w') => (Normal (Rejected (RError e)), w')
        end
  end.

(** [p.catch(onRejected)]. *)
Definition Promise_catch {A} (p : Promise A) (onRejected : reason -> M unit)
  : M (Promise unit) :=
  match p with
  | Pending => mret Pending
  | Fulfilled _ => mret (Fulfilled tt)
  | Rejected r =>
      fun w =>
        match onRejected r w with
        | (Normal _, w') => (Normal (Fulfilled tt), w')
        | (Throw e, w') => (Normal (Rejected (RError e)), w')
        end
  end.

(** [x?.f] and [a || b] as the constructor uses them; [None] is
    [undefined]. *)
Definition optional_chain {R A} (x : option R) (f : R -> option A) : completion (option A) :=
  match x with
  | None => Normal None
  | Some r => Normal (f r)
  end.
Definition logical_or {A} (a : option A) (b : A) : A :=
  match a with
  | Some x => x
  | None => b
  end.

(** The class-field initialiser of [defaultHeaders]. *)
Definition initial_defaultHeaders : gmap string string :=
  {[ "content-type" := "application/json" ]}.

(** constructor(options) *)
Definition constructor (options : option Options.t) : completion NanoClient :=
  url ← optional_chain options Options.url;
  hdrs ← optional_chain options Options.requestHeaders;
  Normal (mkNanoClient url (logical_or hdrs ∅) initial_defaultHeaders).

(** _buildRPCBody(action, params = {}) *)
Definition envelope (action : string) (params : gmap string value) : gmap string value :=
  spread (Some params) {[ "action" := VStr action ]}.

Definition _buildRPCBody (action : string) (params : option (gmap string value))
  : completion json :=
  let params := default ∅ params in
  try_catch (JSON_stringify (envelope action params))
            (fun e => Throw (Error e)).

Section Client.

(** [JSON.parse]: the decoded document, or [None] where it throws a
    SyntaxError. *)
Variable JSON_parse : string -> option json.

(** The promise [axios.request(config)] returns, by the state it ends up
    in.  Everything the network and the node do is in this function. *)
Variable axios_request : AxiosRequestConfig.t -> Promise AxiosResponse.t.

Definition JSON_parse_text (s : string) : completion json :=
  match JSON_parse s with
  | Some v => Normal v
  | None => Throw SyntaxError
  end.

(** [axios.request(config)]: the request is handed over, a promise comes
    back. *)
Definition axios_dot_request (config : AxiosRequestConfig.t)
  : M (Promise AxiosResponse.t) :=
  fun w =>
    (Normal (axios_request config),
     mkWorld (this w) (network w ++ [config]) (promise w)).

(** The callback given to [.then] in [_send]. *)
Definition on_response (response : AxiosResponse.t) : M unit :=
  let data := AxiosResponse.data response in
  err ← lift (get_member data "error");
  if truthy err
  then reject (RData data)
  else
    v ← lift (match data with
              | JStr s => JSON_parse_text s   (* typeof data === 'string' *)
              | _ => Normal data
              end);
    resolve v.

(** _send(method, params) *)
Definition _send (method : string) (params : option (gmap string value))
  : M (Promise json) :=
  new_Promise (
    url ← get_nodeAddress;
    data ← lift (_buildRPCBody method params);
    custom ← get_requestHeaders;
    headers ← Object_assign_defaultHeaders custom;
    p ← axios_dot_request (AxiosRequestConfig.mk "POST" url data headers);
    q ← Promise_then p on_response;
    _ ← Promise_catch q reject;
    mret tt).

(** *** One method per RPC action *)

Definition account_balance (account : value) :=
  _send "account_balance" (Some {[ "account" := account ]}).

Definition account_block_count (account : value) :=
  _send "account_block_count" (Some {[ "account" := account ]}).

Definition account_get (key : value) :=
  _send "account_get" (Some {[ "key" := key ]}).

Definition account_history (account count : value)
    (params : option (gmap string value)) :=
  let count := default_param (VNum 1) count in
  _send "account_history"
    (Some (spread params (<["count" := count]> {[ "account" := account ]}))).

Definition account_info (account : value) (params : option (gmap string value)) :=
  _send "account_info" (Some (spread params {[ "account" := account ]})).

Definition account_key (account : value) :=
  _send "account_key" (Some {[ "account" := account ]}).

Definition account_representative (account : value) :=
  _send "account_representative" (Some {[ "account" := account ]}).

Definition account_weight (account : value) :=
  _send "account_weight" (Some {[ "account" := account ]}).

Definition available_supply := _send "available_supply" None.

Definition block (hash : value) :=
  _send "block" (Some {[ "hash" := hash ]}).

Definition blocks (hashes : value) :=
  _send "blocks" (Some {[ "hashes" := hashes ]}).

Definition block_account (hash : value) :=
  _send "block_account" (Some {[ "hash" := hash ]}).

Definition block_count := _send "block_count" None.

Definition blocks_info (hashes source pending : value) :=
  let source := default_param (VBool false) source in
  let pending := default_param (VBool false) pending in
  _send "blocks_info"
    (Some (<["pending" := pending]> (<["source" := source]> {[ "hashes" := hashes ]}))).

Definition block_count_type := _send "block_count_type" None.

Definition chain (block count : value) :=
  let count := default_param (VNum 1) count in
  _send "chain" (Some (<["count" := count]> {[ "block" := block ]})).

Definition frontiers (account count : value) :=
  let count := default_param (VNum 1) count in
  _send "frontiers" (Some (<["count" := count]> {[ "account" := account ]})).

Definition frontiers_count := _send "frontiers_count" None.

Definition history (hash count : value) :=
  let count := default_param (VNum 1) count in
  _send "history" (Some (<["count" := count]> {[ "hash" := hash ]})).

Definition mrai_from_raw (amount : value) :=
  _send "mrai_from_raw" (Some {[ "amount" := amount ]}).

Definition mrai_to_raw (amount : value) :=
  _send "mrai_to_raw" (Some {[ "amount" := amount ]}).

Definition krai_from_raw (amount : value) :=
  _send "krai_from_raw" (Some {[ "amount" := amount ]}).

Definition krai_to_raw (amount : value) :=
  _send "krai_to_raw" (Some {[ "amount" := amount ]}).

Definition rai_from_raw (amount : value) :=
  _send "rai_from_raw" (Some {[ "amount" := amount ]}).

Definition rai_to_raw (amount : value) :=
  _send "rai_to_raw" (Some {[ "amount" := amount ]}).

Definition ledger (account count representative weight pending sorting : value) :=
  let count := default_param (VNum 1) count in
  let representative := default_param (VBool false) representative in
  let weight := default_param (VBool false) weight in
  let pending := default_param (VBool false) pending in
  let sorting := default_param (VBool false) sorting in
  _send "ledger"
    (Some (<["sorting" := sorting]> (<["pending" := pending]> (<["weight" := weight]>
          (<["representative" := representative]> (<["count" := count]>
          {[ "account" := account ]})))))).

Definition block_create (type key account representative source : value) :=
  _send "block_create"
    (Some (<["source" := source]> (<["representative" := representative]>
          (<["account" := account]> (<["key" := key]> {[ "type" := type ]}))))).

Definition process (block : value) :=
  _send "process" (Some {[ "block" := block ]}).

Definition representatives (count sorting : value) :=
  let count := default_param (VNum 1) count in
  let sorting := default_param (VBool false) sorting in
  _send "representatives" None.

(** *** Running a call on a client instance *)

Definition run {A} (call : M A) (c : NanoClient) : completion A * world :=
  call (mkWorld c [] Pending).

(** what the call returns (or throws) *)
Definition returned {A} (call : M A) (c : NanoClient) : completion A :=
  fst (run call c).
(** the instance after the call *)
Definition after {A} (call : M A) (c : NanoClient) : NanoClient :=
  this (snd (run call c)).
(** the requests the call handed to the transport *)
Definition requests {A} (call : M A) (c : NanoClient) : list AxiosRequestConfig.t :=
  network (snd (run call c)).
(** the bodies of those requests *)
Definition bodies {A} (call : M A) (c : NanoClient) : list json :=
  AxiosRequestConfig.data <$> requests call c.

(** The instances a program can hold: a constructed one, and any instance
    after a call.  Every public method is [_send] at some arguments. *)
Inductive reachable : NanoClient -> Prop :=
| reachable_new options c :
    constructor options = Normal c -> reachable c
| reachable_call c method params :
    reachable c -> reachable (after (_send method params) c).

End Client.

(** ** Vocabulary for the statements *)

(** [v] is a defined, JSON-representable value and [j] is its JSON. *)
Definition json_of (v : value) (j : json) : Prop :=
  SerializeJSONProperty v = Normal (Some j).

(** [JSON.stringify] does not throw on [v]. *)
Definition serialisable (v : value) : Prop :=
  is_normal (SerializeJSONProperty v) = true.

(** What an object property contributes to the JSON text of the object. *)
Definition json_property (v : value) : option json :=
  property_of (SerializeJSONProperty v).

(** The value has a top-level field [key]. *)
Definition has_field (v : json) (key : string) : Prop :=
  exists fields x, v = JObj fields /\ fields !! key = Some x.

(** The request [_send] builds on instance [c] for a serialised [body]. *)
Definition request_of (c : NanoClient) (body : json) : AxiosRequestConfig.t :=
  AxiosRequestConfig.mk "POST" (nodeAddress c) body
    (Object_assign (defaultHeaders c) (requestHeaders c)).

(** The instance after a call that got as far as building its request. *)
Definition merged (c : NanoClient) : NanoClient :=
  mkNanoClient (nodeAddress c) (requestHeaders c)
    (Object_assign (defaultHeaders c) (requestHeaders c)).

(** The call hands exactly one request to the transport, its body is an
    object, and field [key] of that object is [j] ([None]: no such
    field). *)
Definition sends_field {A} (call : M A) (c : NanoClient) (key : string)
    (j : option json) : Prop :=
  exists fields, bodies call c = [JObj fields] /\ fields !! key = j.

(** ** A concrete environment for examples *)

Module Sample.

(** A decoder that knows two texts and rejects every other one; it agrees
    with [JSON.parse] on the empty text and on the two it knows. *)
Definition JSON_parse (s : string) : option json :=
  if String.eqb s "[1,2]" then Some (JArr [JNum 1; JNum 2])
  else if String.eqb s "{}" then Some (JObj ∅)
  else None.

(** A node that answers every request with status 200 and the given
    data. *)
Definition node (reply : json) : AxiosRequestConfig.t -> Promise AxiosResponse.t :=
  fun _ => Fulfilled (AxiosResponse.mk reply 200).

Definition options : Options.t :=
  Options.mk (Some "http://localhost:7076")
             (Some {[ "authorization" := "Bearer t" ]}).

(** [new NanoClient(options)] *)
Definition client : NanoClient :=
  mkNanoClient (Some "http://localhost:7076")
               {[ "authorization" := "Bearer t" ]}
               initial_defaultHeaders.

(** [const p = {}; p.self = p]: an object that contains itself. *)
Definition cyclic : gmap string value := {[ "self" := VCircular ]}.

End Sample.

(** Transports that do not answer. *)
Module Transports.

(** The connection fails: axios rejects with its own error. *)
Definition refusing (message : string)
  : AxiosRequestConfig.t -> Promise AxiosResponse.t :=
  fun _ => Rejected (RTransport message).

(** No answer ever comes. *)
Definition silent : AxiosRequestConfig.t -> Promise AxiosResponse.t :=
  fun _ => Pending.

End Transports.

(** ** Facts about the runtime model *)

Example stringify_drops_undefined :
  JSON_stringify {[ "a" := VUndefined; "b" := VArr [VUndefined; VNum 1] ]}
  = Normal (JObj {[ "b" := JArr [JNull; JNum 1] ]}).
Proof. reflexivity. Qed.

Example stringify_cycle_throws :
  JSON_stringify {[ "a" := VNum 1; "self" := VObj Sample.cyclic ]} = Throw TypeError.
Proof. reflexivity. Qed.

Lemma SerializeJSONProperty_object (o : gmap string value) :
  SerializeJSONProperty (VObj o)
  = if bool_decide (map_Forall (fun _ v => serialisable v) o)
    then Normal (Some (JObj (omap json_property o)))
    else Throw TypeError.
Proof.
  change (SerializeJSONProperty (VObj o)) with
    (let rs := SerializeJSONProperty <$> o in
     if bool_decide (map_Forall (fun _ r => is_normal r = true) rs)
     then Normal (Some (JObj (omap property_of rs)))
     else Throw TypeError).
  cbv zeta.
  rewrite (bool_decide_ext _ (map_Forall (fun _ v => serialisable v) o)).
  2:{ apply (map_Forall_fmap (fun _ r => is_normal r = true)). }
  destruct (bool_decide _); [|reflexivity].
  do 3 f_equal. apply map_eq; intros k.
  rewrite !lookup_omap, lookup_fmap. by destruct (o !! k).
Qed.

Lemma JSON_stringify_normal (o : gmap string value) :
  map_Forall (fun _ v => serialisable v) o ->
  JSON_stringify o = Normal (JObj (omap json_property o)).
Proof.
  intros H. unfold JSON_stringify. rewrite SerializeJSONProperty_object.
  by rewrite bool_decide_eq_true_2.
Qed.

Lemma JSON_stringify_throw (o : gmap string value) k v :
  o !! k = Some v -> ~ serialisable v ->
  JSON_stringify o = Throw TypeError.
Proof.
  intros Hk Hv. unfold JSON_stringify. rewrite SerializeJSONProperty_object.
  rewrite bool_decide_eq_false_2; [done|].
  intros H. apply Hv. exact (H k v Hk).
Qed.

Lemma JSON_stringify_cases (o : gmap string value) :
  (map_Forall (fun _ v => serialisable v) o
   /\ JSON_stringify o = Normal (JObj (omap json_property o)))
  \/ ((exists k v, o !! k = Some v /\ ~ serialisable v)
      /\ JSON_stringify o = Throw TypeError).
Proof.
  destruct (decide (map_Forall (fun _ v => serialisable v) o)) as [H|H].
  - left. split; [done|]. by apply JSON_stringify_normal.
  - right. apply map_not_Forall in H; [|tc_solve].
    destruct H as (k & v & Hk & Hv). split; [by eauto|].
    by eapply JSON_stringify_throw.
Qed.

(** ** The envelope builder *)

Lemma envelope_lookup action (params : gmap string value) k :
  envelope action params !! k
  = match params !! k with
    | Some v => Some v
    | None => if decide (k = "action") then Some (VStr action) else None
    end.
Proof.
  unfold envelope, spread, Object_assign. cbn [default from_option id].
  destruct (params !! k) as [v|] eqn:E.
  - by apply lookup_union_Some_l.
  - rewrite lookup_union_r by done. rewrite lookup_singleton.
    repeat case_decide; congruence.
Qed.

Lemma buildRPCBody_normal action (params : gmap string value) :
  map_Forall (fun _ v => serialisable v) params ->
  _buildRPCBody action (Some params)
  = Normal (JObj (omap json_property (envelope action params))).
Proof.
  intros H. unfold _buildRPCBody. cbn [default from_option id].
  rewrite JSON_stringify_normal; [done|].
  intros k v. destruct (params !! k) as [x|] eqn:E; rewrite envelope_lookup, E.
  - intros [= ?]; subst. by eapply H.
  - case_decide; intros [= ?]; subst. reflexivity.
Qed.

Lemma buildRPCBody_throw action (params : gmap string value) k v :
  params !! k = Some v -> ~ serialisable v ->
  _buildRPCBody action (Some params) = Throw (Error TypeError).
Proof.
  intros Hk Hv. unfold _buildRPCBody. cbn [default from_option id].
  rewrite (JSON_stringify_throw _ k v); [done| |done].
  by rewrite envelope_lookup, Hk.
Qed.

Lemma buildRPCBody_no_params action :
  _buildRPCBody action None = Normal (JObj {[ "action" := JStr action ]}).
Proof.
  unfold _buildRPCBody. cbn [default from_option id].
  rewrite JSON_stringify_normal.
  - unfold envelope, spread, Object_assign. cbn [default from_option id].
    rewrite (left_id_L ∅ _). by rewrite omap_singleton_Some with (y := JStr action).
  - intros k v. rewrite envelope_lookup, lookup_empty.
    case_decide; intros [= ?]; subst. reflexivity.
Qed.

Section ClientFacts.

Variable JSON_parse : string -> option json.
Variable axios_request : AxiosRequestConfig.t -> Promise AxiosResponse.t.

#[local] Abbreviation _send := (_send JSON_parse axios_request).

Lemma run_send_throw c method params e :
  _buildRPCBody method params = Throw e ->
  run (_send method params) c
  = (Normal (Rejected (RError e)), mkWorld c [] (Rejected (RError e))).
Proof.
  intros H. unfold run, _send, new_Promise, mbind, M_bind, lift. cbn.
  rewrite H. cbn. by destruct c.
Qed.

(** The state the promise of [_send] ends up in, once the transport
    promise has settled as [p]. *)
Lemma run_send_normal c method params body :
  _buildRPCBody method params = Normal body ->
  exists p,
    run (_send method params) c
    = (Normal p, mkWorld (merged c) [request_of c body] p)
    /\ match axios_request (request_of c body) with
       | Pending => p = Pending
       | Rejected r => p = Rejected r
       | Fulfilled response =>
           let data := AxiosResponse.data response in
           match get_member data "error" with
           | Throw e => p = Rejected (RError e)
           | Normal err =>
               if truthy err then p = Rejected (RData data)
               else match data with
                    | JStr s =>
                        match JSON_parse s with
                        | Some v => p = Fulfilled v
                        | None => p = Rejected (RError SyntaxError)
                        end
                    | _ => p = Fulfilled data
                    end
           end
       end.
Proof.
  intros H. unfold run, _send, new_Promise, mbind, M_bind, lift. cbn.
  rewrite H. cbn. fold (request_of c body). fold (merged c).
  destruct (axios_request (request_of c body)) as [|response|r]; cbn.
  - eauto.
  - unfold on_response, mbind, M_bind, lift.
    destruct (get_member (AxiosResponse.data response) "error") as [err|e]; cbn.
    + destruct (truthy err); cbn; [eauto|].
      destruct (AxiosResponse.data response); cbn; eauto.
      unfold JSON_parse_text. destruct (JSON_parse s); cbn; eauto.
    + eauto.
  - eauto.
Qed.

Lemma returned_send_throw c method params e :
  _buildRPCBody method params = Throw e ->
  returned (_send method params) c = Normal (Rejected (RError e)).
Proof. intros H. unfold returned. by rewrite (run_send_throw _ _ _ _ H). Qed.

Lemma requests_send_normal c method params body :
  _buildRPCBody method params = Normal body ->
  requests (_send method params) c = [request_of c body].
Proof.
  intros H. destruct (run_send_normal c _ _ _ H) as (p & Hrun & _).
  unfold requests. by rewrite Hrun.
Qed.

Lemma after_send_normal c method params body :
  _buildRPCBody method params = Normal body ->
  after (_send method params) c = merged c.
Proof.
  intros H. destruct (run_send_normal c _ _ _ H) as (p & Hrun & _).
  unfold after. by rewrite Hrun.
Qed.

Lemma after_send_throw c method params e :
  _buildRPCBody method params = Throw e ->
  after (_send method params) c = c.
Proof. intros H. unfold after. by rewrite (run_send_throw _ _ _ _ H). Qed.

(** Every field of the body a call sends is the serialisation of the
    corresponding entry of the envelope. *)
Lemma send_sends_field c method (params : gmap string value) k :
  map_Forall (fun _ v => serialisable v) params ->
  sends_field (_send method (Some params)) c k
    (envelope method params !! k ≫= json_property).
Proof.
  intros H. exists (omap json_property (envelope method params)). split.
  - unfold bodies.
    by rewrite (requests_send_normal _ _ _ _ (buildRPCBody_normal method params H)).
  - by rewrite lookup_omap.
Qed.

Lemma serialisable_default_param d v :
  serialisable d -> serialisable v -> serialisable (default_param d v).
Proof. by destruct v. Qed.

(** The header invariant of reachable instances. *)
Lemma reachable_headers c :
  reachable JSON_parse axios_request c ->
  Object_assign (defaultHeaders c) (requestHeaders c)
  = requestHeaders c ∪ initial_defaultHeaders.
Proof.
  unfold Object_assign. induction 1 as [options c Hc | c method params Hc IH].
  - destruct options as [[u h]|]; cbn in Hc; by injection Hc as <-.
  - destruct (_buildRPCBody method params) as [body|e] eqn:E.
    + rewrite (after_send_normal _ _ _ _ E). cbn. unfold Object_assign.
      rewrite IH. by rewrite (assoc_L (∪)), (idemp_L (∪)).
    + by rewrite (after_send_throw _ _ _ _ E).
Qed.

End ClientFacts.

(** ** Construction *)

(** C9: the constructor never throws, whether [options] is undefined, lacks
    [url] or lacks [requestHeaders]; a missing [requestHeaders] becomes the
    empty object and a missing [url] leaves [nodeAddress] undefined. *)
Theorem constructor_total (options : option Options.t) :
  exists c,
    constructor options = Normal c
    /\ nodeAddress c = options ≫= Options.url
    /\ requestHeaders c = default ∅ (options ≫= Options.requestHeaders)
    /\ defaultHeaders c = initial_defaultHeaders
    /\ (options = None -> nodeAddress c = None /\ requestHeaders c = ∅)
    /\ (options ≫= Options.url = None -> nodeAddress c = None)
    /\ (options ≫= Options.requestHeaders = None -> requestHeaders c = ∅).
Proof.
  destruct options as [[u h]|]; cbn.
  - eexists; split; [reflexivity|]. cbn. repeat split; try done. by intros ->.
  - eexists; split; [reflexivity|]. cbn. by repeat split.
Qed.

Lemma constructor_total_witness :
  Some (Options.mk None None) ≫= Options.requestHeaders = None
  /\ exists c, constructor (Some (Options.mk None None)) = Normal c
               /\ nodeAddress c = None /\ requestHeaders c = ∅.
Proof.
  split; [reflexivity|].
  destruct (constructor_total (Some (Options.mk None None)))
    as (c & Hc & _ & _ & _ & _ & Hu & Hh).
  exists c. split; [exact Hc|]. split; [exact (Hu eq_refl) | exact (Hh eq_refl)].
Defined.

Example constructor_sample : constructor (Some Sample.options) = Normal Sample.client.
Proof. reflexivity. Qed.

(** ** The envelope *)

(** C10: the parameters are merged after the action tag.  For every action
    name and every parameter mapping whose values serialise, the body
    [_buildRPCBody] builds carries every entry of the mapping and, beside
    them, only the action tag, which is there exactly when the mapping has
    no "action" entry of its own: an "action" entry of the mapping replaces
    the tag in the serialised body.  (A mapping with a value that does not
    serialise makes the builder throw; without a mapping the body is the
    tag alone.) *)
Theorem buildRPCBody_params_override_action action (params : gmap string value) :
  envelope action params = params ∪ {[ "action" := VStr action ]}
  /\ (forall k v, params !! k = Some v -> envelope action params !! k = Some v)
  /\ (forall k, params !! k = None ->
        envelope action params !! k
        = ({[ "action" := VStr action ]} : gmap string value) !! k)
  /\ (forall v, params !! "action" = Some v ->
        map_Forall (fun _ x => serialisable x) params ->
        exists fields,
          _buildRPCBody action (Some params) = Normal (JObj fields)
          /\ fields !! "action" = json_property v
          /\ forall k, fields !! k = params !! k ≫= json_property)
  /\ (map_Forall (fun _ x => serialisable x) params ->
        exists fields,
          _buildRPCBody action (Some params) = Normal (JObj fields)
          /\ (forall k v, params !! k = Some v -> fields !! k = json_property v)
          /\ (forall k, params !! k = None ->
                fields !! k
                = if decide (k = "action") then Some (JStr action) else None)
          /\ (params !! "action" = None ->
                fields !! "action" = Some (JStr action)))
  /\ (forall k v, params !! k = Some v -> ~ serialisable v ->
        _buildRPCBody action (Some params) = Throw (Error TypeError))
  /\ _buildRPCBody action None = Normal (JObj {[ "action" := JStr action ]}).
Proof.
  split; [reflexivity|]. split; [|split; [|split; [|split; [|split]]]].
  - intros k v Hk. by rewrite envelope_lookup, Hk.
  - intros k Hk. rewrite envelope_lookup, Hk, lookup_singleton.
    repeat case_decide; congruence.
  - intros v Hv Hall. eexists. split; [by apply buildRPCBody_normal|].
    split.
    + by rewrite lookup_omap, envelope_lookup, Hv.
    + intros k. rewrite lookup_omap, envelope_lookup.
      destruct (params !! k) as [x|] eqn:E; [done|].
      case_decide; [|done]. congruence.
  - intros Hall. eexists. split; [by apply buildRPCBody_normal|].
    split; [|split].
    + intros k v Hk. by rewrite lookup_omap, envelope_lookup, Hk.
    + intros k Hk. rewrite lookup_omap, envelope_lookup, Hk.
      by case_decide.
    + intros Hk. by rewrite lookup_omap, envelope_lookup, Hk.
  - intros k v Hk Hv. by eapply buildRPCBody_throw.
  - apply buildRPCBody_no_params.
Qed.

Lemma buildRPCBody_params_override_action_witness :
  let params : gmap string value :=
    {[ "action" := VStr "stop"; "account" := VStr "nano_1abc" ]} in
  let plain : gmap string value := {[ "account" := VStr "nano_1abc" ]} in
  params !! "action" = Some (VStr "stop")
  /\ map_Forall (fun _ x => serialisable x) params
  /\ plain !! "action" = None
  /\ map_Forall (fun _ x => serialisable x) plain
  /\ (exists fields,
        _buildRPCBody "account_balance" (Some params) = Normal (JObj fields)
        /\ fields !! "action" = Some (JStr "stop"))
  /\ (exists fields,
        _buildRPCBody "account_balance" (Some plain) = Normal (JObj fields)
        /\ fields !! "action" = Some (JStr "account_balance")
        /\ fields !! "account" = Some (JStr "nano_1abc")).
Proof.
  intros params plain.
  assert (Hall : map_Forall (fun _ x => serialisable x) params).
  { apply (bool_decide_unpack _). vm_compute. exact I. }
  assert (Hplain : map_Forall (fun _ x => serialisable x) plain).
  { apply (bool_decide_unpack _). vm_compute. exact I. }
  split; [reflexivity|]. split; [exact Hall|].
  split; [reflexivity|]. split; [exact Hplain|]. split.
  - destruct (buildRPCBody_params_override_action "account_balance" params)
      as (_ & _ & _ & H & _).
    destruct (H (VStr "stop") eq_refl Hall) as (fields & Hb & Ha & _).
    exists fields. split; [exact Hb | exact Ha].
  - destruct (buildRPCBody_params_override_action "account_balance" plain)
      as (_ & _ & _ & _ & H & _).
    destruct (H Hplain) as (fields & Hb & Hsome & _ & Htag).
    exists fields. split; [exact Hb|]. split; [exact (Htag eq_refl)|].
    exact (Hsome "account" (VStr "nano_1abc") eq_refl).
Defined.

(** ** Sending *)

Section Sending.

Variable JSON_parse : string -> option json.
Variable axios_request : AxiosRequestConfig.t -> Promise AxiosResponse.t.

#[local] Abbreviation _send := (_send JSON_parse axios_request).

(** C2, amended: when the transport promise fulfils with a response whose
    data has a truthy [error] property, the call rejects with that data,
    unchanged, whatever status the response carries.  An [error] property
    that is falsy does not make the call reject: the call then resolves as
    it does without one.  For a decoded object with an [error] field this
    is the whole story: the call resolves with the object when the field
    holds the empty string, 0, false or null, and rejects with the object
    for every other value. *)
Theorem send_rejects_on_truthy_error c method params body response err :
  _buildRPCBody method params = Normal body ->
  axios_request (request_of c body) = Fulfilled response ->
  get_member (AxiosResponse.data response) "error" = Normal err ->
  let data := AxiosResponse.data response in
  (truthy err = true ->
   returned (_send method params) c = Normal (Rejected (RData data)))
  /\ (truthy err = false ->
      returned (_send method params) c
      = Normal (match data with
                | JStr s =>
                    match JSON_parse s with
                    | Some v => Fulfilled v
                    | None => Rejected (RError SyntaxError)
                    end
                | _ => Fulfilled data
                end))
  /\ (forall fields e,
        data = JObj fields -> fields !! "error" = Some e ->
        (e = JStr "" \/ e = JNum 0 \/ e = JBool false \/ e = JNull ->
         returned (_send method params) c = Normal (Fulfilled data))
        /\ (e <> JStr "" -> e <> JNum 0 -> e <> JBool false -> e <> JNull ->
            returned (_send method params) c = Normal (Rejected (RData data)))).
Proof.
  intros Hbody Hax Herr. cbv zeta.
  destruct (run_send_normal JSON_parse axios_request c _ _ _ Hbody)
    as (p & Hrun & Hp).
  rewrite Hax in Hp. cbn zeta in Hp. rewrite Herr in Hp.
  unfold returned. rewrite Hrun. cbn [fst].
  remember (AxiosResponse.data response) as data eqn:Hdata. clear Hdata.
  assert (Htrue : truthy err = true -> Normal p = Normal (Rejected (RData data))).
  { intros Ht. rewrite Ht in Hp. by rewrite Hp. }
  assert (Hfalse : truthy err = false ->
            Normal p = Normal (match data with
                               | JStr s =>
                                   match JSON_parse s with
                                   | Some v => Fulfilled v
                                   | None => Rejected (RError SyntaxError)
                                   end
                               | _ => Fulfilled data
                               end)).
  { intros Ht. rewrite Ht in Hp. f_equal.
    destruct data as [| | |s| |]; try done. by destruct (JSON_parse s). }
  split; [exact Htrue|]. split; [exact Hfalse|].
  intros fields e -> He. cbn in Herr, Hfalse.
  rewrite He in Herr. injection Herr as <-. split.
  - intros [-> | [-> | [-> | ->]]]; by apply Hfalse.
  - intros Hs Hn Hb Hnull. apply Htrue.
    destruct e as [|b|n|s| |]; cbn; try done.
    + by destruct b.
    + destruct (Z.eqb_spec n 0) as [->|]; done.
    + destruct (String.eqb_spec s "") as [->|]; done.
Qed.

(** C3, amended: when the parameters cannot be serialised, [_send] still
    returns a promise; that promise is rejected with the error
    [_buildRPCBody] threw, no request reaches the transport and the
    instance is untouched. *)
Theorem send_serialization_failure_rejects c method params e :
  _buildRPCBody method params = Throw e ->
  returned (_send method params) c = Normal (Rejected (RError e))
  /\ requests (_send method params) c = []
  /\ after (_send method params) c = c.
Proof.
  intros H. unfold returned, requests, after.
  by rewrite (run_send_throw JSON_parse axios_request c _ _ _ H).
Qed.

(** C4, amended: no call modifies [nodeAddress] or [requestHeaders].
    [defaultHeaders] is overwritten by every call that builds its request:
    it then holds its old entries overridden by [requestHeaders]; a call
    whose body cannot be serialised leaves it alone.  Once one call has
    built its request, further calls no longer change it. *)
Theorem send_frame c method params :
  let c' := after (_send method params) c in
  nodeAddress c' = nodeAddress c
  /\ requestHeaders c' = requestHeaders c
  /\ defaultHeaders c'
     = (if is_normal (_buildRPCBody method params)
        then Object_assign (defaultHeaders c) (requestHeaders c)
        else defaultHeaders c)
  /\ (is_normal (_buildRPCBody method params) = true ->
      forall method2 params2,
        after (_send method2 params2) c' = c').
Proof.
  destruct (_buildRPCBody method params) as [body|e] eqn:E; cbn.
  - rewrite (after_send_normal _ _ _ _ _ _ E). cbn.
    repeat split. intros _ method2 params2.
    destruct (_buildRPCBody method2 params2) as [body2|e2] eqn:E2.
    + rewrite (after_send_normal _ _ _ _ _ _ E2). unfold merged, Object_assign.
      cbn. by rewrite (assoc_L (∪)), (idemp_L (∪)).
    + by rewrite (after_send_throw _ _ _ _ _ _ E2).
  - rewrite (after_send_throw _ _ _ _ _ _ E). by repeat split.
Qed.

(** C5: on every reachable instance, a call whose body serialises hands
    exactly one request to the transport: a POST to [nodeAddress] carrying
    that body, whose headers are the custom headers where there is one
    for the key and the default content-type header otherwise. *)
Theorem send_one_post c method params body :
  reachable JSON_parse axios_request c ->
  _buildRPCBody method params = Normal body ->
  exists config,
    requests (_send method params) c = [config]
    /\ AxiosRequestConfig.method config = "POST"
    /\ AxiosRequestConfig.url config = nodeAddress c
    /\ AxiosRequestConfig.data config = body
    /\ AxiosRequestConfig.headers config
       = requestHeaders c ∪ {[ "content-type" := "application/json" ]}
    /\ forall k,
         AxiosRequestConfig.headers config !! k
         = match requestHeaders c !! k with
           | Some v => Some v
           | None => if decide (k = "content-type")
                     then Some "application/json" else None
           end.
Proof.
  intros Hc Hbody. exists (request_of c body).
  split; [by apply requests_send_normal|].
  assert (Hh : AxiosRequestConfig.headers (request_of c body)
               = requestHeaders c ∪ {[ "content-type" := "application/json" ]}).
  { cbn. by rewrite (reachable_headers _ _ _ Hc). }
  repeat split; [exact Hh|].
  intros k. rewrite Hh. destruct (requestHeaders c !! k) as [v|] eqn:E.
  - by apply lookup_union_Some_l.
  - rewrite lookup_union_r by done. rewrite lookup_singleton.
    repeat case_decide; congruence.
Qed.

(** C8, amended: when the transport promise fulfils with data that is not
    null and has no [error] property, the call resolves with that data
    unchanged, unless the data is a string: a string that decodes as JSON
    resolves with the decoded value, one that does not decode rejects with
    the SyntaxError. *)
Theorem send_resolves_without_error_field c method params body response :
  _buildRPCBody method params = Normal body ->
  axios_request (request_of c body) = Fulfilled response ->
  get_member (AxiosResponse.data response) "error" = Normal None ->
  returned (_send method params) c
  = Normal (match AxiosResponse.data response with
            | JStr s =>
                match JSON_parse s with
                | Some v => Fulfilled v
                | None => Rejected (RError SyntaxError)
                end
            | data => Fulfilled data
            end).
Proof.
  intros Hbody Hax Herr.
  destruct (run_send_normal JSON_parse axios_request c _ _ _ Hbody)
    as (p & Hrun & Hp).
  rewrite Hax in Hp. cbn zeta in Hp. rewrite Herr in Hp. cbn in Hp.
  unfold returned. rewrite Hrun. cbn. f_equal.
  destruct (AxiosResponse.data response); try done.
  by destruct (JSON_parse s).
Qed.

End Sending.

(** *** Instances of the sending theorems and inputs that separate the
    code from nearby statements *)

Lemma send_rejects_on_truthy_error_witness :
  let reply := JObj {[ "error" := JStr "Account not found" ]} in
  let zero := JObj {[ "error" := JNum 0 ]} in
  let body := JObj {[ "action" := JStr "account_balance";
                      "account" := JStr "nano_1abc" ]} in
  _buildRPCBody "account_balance" (Some {[ "account" := VStr "nano_1abc" ]})
  = Normal body
  /\ Sample.node reply (request_of Sample.client body)
     = Fulfilled (AxiosResponse.mk reply 200)
  /\ get_member reply "error" = Normal (Some (JStr "Account not found"))
  /\ truthy (Some (JStr "Account not found")) = true
  /\ returned (account_balance Sample.JSON_parse (Sample.node reply)
                 (VStr "nano_1abc")) Sample.client
     = Normal (Rejected (RData reply))
  /\ get_member zero "error" = Normal (Some (JNum 0))
  /\ returned (account_balance Sample.JSON_parse (Sample.node zero)
                 (VStr "nano_1abc")) Sample.client
     = Normal (Fulfilled zero).
Proof.
  intros reply zero body.
  assert (Hbody : _buildRPCBody "account_balance"
                    (Some {[ "account" := VStr "nano_1abc" ]}) = Normal body)
    by reflexivity.
  split; [exact Hbody|]. do 3 (split; [reflexivity|]). split; [|split].
  - exact (proj1 (send_rejects_on_truthy_error Sample.JSON_parse
                    (Sample.node reply) Sample.client "account_balance" _ body
                    (AxiosResponse.mk reply 200)
                    (Some (JStr "Account not found"))
                    Hbody eq_refl eq_refl) eq_refl).
  - reflexivity.
  - refine (proj1 (proj2 (proj2 (send_rejects_on_truthy_error Sample.JSON_parse
                    (Sample.node zero) Sample.client "account_balance" _ body
                    (AxiosResponse.mk zero 200) (Some (JNum 0))
                    Hbody eq_refl eq_refl))
                    {[ "error" := JNum 0 ]} (JNum 0) eq_refl eq_refl) _).
    right. left. reflexivity.
Defined.

(** An [error] field is present but holds the empty string: the call
    resolves. *)
Lemma falsy_error_field_resolves :
  let reply := JObj {[ "error" := JStr "" ]} in
  has_field reply "error"
  /\ returned (account_balance Sample.JSON_parse (Sample.node reply)
                 (VStr "nano_1abc")) Sample.client
     = Normal (Fulfilled reply).
Proof.
  intros reply. split; [|reflexivity].
  exists {[ "error" := JStr "" ]}, (JStr ""). split; reflexivity.
Qed.

Lemma send_serialization_failure_rejects_witness :
  let params : option (gmap string value) :=
    Some {[ "block" := VObj Sample.cyclic ]} in
  _buildRPCBody "process" params = Throw (Error TypeError)
  /\ returned (_send Sample.JSON_parse (Sample.node JNull) "process" params)
       Sample.client
     = Normal (Rejected (RError (Error TypeError)))
  /\ requests (_send Sample.JSON_parse (Sample.node JNull) "process" params)
       Sample.client = []
  /\ after (_send Sample.JSON_parse (Sample.node JNull) "process" params)
       Sample.client = Sample.client.
Proof.
  intros params. split; [reflexivity|].
  exact (send_serialization_failure_rejects Sample.JSON_parse (Sample.node JNull)
           Sample.client "process" params (Error TypeError) eq_refl).
Defined.

(** A cyclic parameter: the call returns a rejected promise, it does not
    throw. *)
Lemma cyclic_params_reject_not_throw :
  let call := process Sample.JSON_parse (Sample.node JNull) (VObj Sample.cyclic) in
  JSON_stringify (envelope "process" {[ "block" := VObj Sample.cyclic ]})
  = Throw TypeError
  /\ returned call Sample.client = Normal (Rejected (RError (Error TypeError)))
  /\ forall e, returned call Sample.client <> Throw e.
Proof.
  intros call. split; [reflexivity|]. split; [reflexivity|].
  intros e. change (returned call Sample.client)
    with (Normal (A := Promise json) (Rejected (RError (Error TypeError)))).
  discriminate.
Qed.

Lemma send_frame_witness :
  let first := _send Sample.JSON_parse (Sample.node JNull) "block_count" None in
  let second := _send Sample.JSON_parse (Sample.node JNull) "frontiers_count" None in
  is_normal (_buildRPCBody "block_count" None) = true
  /\ requestHeaders (after first Sample.client) = requestHeaders Sample.client
  /\ after second (after first Sample.client) = after first Sample.client.
Proof.
  intros first second.
  destruct (send_frame Sample.JSON_parse (Sample.node JNull) Sample.client
              "block_count" None) as (_ & Hr & _ & Hidem).
  split; [reflexivity|]. split; [exact Hr|].
  exact (Hidem eq_refl "frontiers_count" None).
Defined.

(** The first call on a client with a custom header changes
    [defaultHeaders]. *)
Lemma first_send_changes_defaultHeaders :
  let c := Sample.client in
  let c' := after (block_count Sample.JSON_parse (Sample.node JNull)) c in
  constructor (Some Sample.options) = Normal c
  /\ defaultHeaders c !! "authorization" = None
  /\ defaultHeaders c' !! "authorization" = Some "Bearer t"
  /\ defaultHeaders c' <> defaultHeaders c.
Proof.
  intros c c'. repeat split.
  intros H. apply (f_equal (fun m => m !! "authorization")) in H.
  vm_compute in H. discriminate.
Qed.

Lemma send_one_post_witness :
  let c := Sample.client in
  let body := JObj {[ "action" := JStr "block_count" ]} in
  reachable Sample.JSON_parse (Sample.node JNull) c
  /\ _buildRPCBody "block_count" None = Normal body
  /\ exists config,
       requests (_send Sample.JSON_parse (Sample.node JNull) "block_count" None) c
       = [config]
       /\ AxiosRequestConfig.method config = "POST"
       /\ AxiosRequestConfig.url config = Some "http://localhost:7076"
       /\ AxiosRequestConfig.headers config !! "content-type"
          = Some "application/json".
Proof.
  intros c body.
  assert (Hc : reachable Sample.JSON_parse (Sample.node JNull) c).
  { apply (reachable_new _ _ (Some Sample.options)). reflexivity. }
  split; [exact Hc|]. split; [reflexivity|].
  destruct (send_one_post Sample.JSON_parse (Sample.node JNull) c
              "block_count" None body Hc eq_refl)
    as (config & Hreq & Hm & Hu & _ & _ & Hh).
  exists config. split; [exact Hreq|]. split; [exact Hm|]. split; [exact Hu|].
  rewrite Hh. reflexivity.
Defined.

Lemma send_resolves_without_error_field_witness :
  let reply := JObj {[ "balance" := JStr "100"; "pending" := JStr "5" ]} in
  let body := JObj {[ "action" := JStr "account_balance";
                      "account" := JStr "nano_1abc" ]} in
  _buildRPCBody "account_balance" (Some {[ "account" := VStr "nano_1abc" ]})
  = Normal body
  /\ Sample.node reply (request_of Sample.client body)
     = Fulfilled (AxiosResponse.mk reply 200)
  /\ get_member reply "error" = Normal None
  /\ returned (account_balance Sample.JSON_parse (Sample.node reply)
                 (VStr "nano_1abc")) Sample.client
     = Normal (Fulfilled reply).
Proof.
  intros reply body.
  assert (Hbody : _buildRPCBody "account_balance"
                    (Some {[ "account" := VStr "nano_1abc" ]}) = Normal body)
    by reflexivity.
  split; [exact Hbody|]. do 2 (split; [reflexivity|]).
  exact (send_resolves_without_error_field Sample.JSON_parse (Sample.node reply)
           Sample.client "account_balance" _ body
           (AxiosResponse.mk reply 200) Hbody eq_refl eq_refl).
Defined.

(** The body [null] has no fields at all, yet the call rejects. *)
Lemma null_body_rejects :
  ~ has_field JNull "error"
  /\ returned (account_balance Sample.JSON_parse (Sample.node JNull)
                 (VStr "nano_1abc")) Sample.client
     = Normal (Rejected (RError TypeError)).
Proof.
  split; [|reflexivity]. by intros (fields & x & H & _).
Qed.

Example string_body_is_decoded :
  returned (block_count Sample.JSON_parse (Sample.node (JStr "[1,2]"))) Sample.client
  = Normal (Fulfilled (JArr [JNum 1; JNum 2])).
Proof. reflexivity. Qed.

Example empty_body_rejects :
  returned (block_count Sample.JSON_parse (Sample.node (JStr ""))) Sample.client
  = Normal (Rejected (RError SyntaxError)).
Proof. reflexivity. Qed.

(** ** The per-action methods *)

Lemma spread_serialisable (opts : option (gmap string value)) literal :
  map_Forall (fun _ v => serialisable v) (default ∅ opts) ->
  map_Forall (fun _ v => serialisable v) literal ->
  map_Forall (fun _ v => serialisable v) (spread opts literal).
Proof. intros H1 H2. by apply map_Forall_union_2. Qed.

Lemma spread_lookup (opts : option (gmap string value)) literal k :
  spread opts literal !! k
  = match default ∅ opts !! k with
    | Some v => Some v
    | None => literal !! k
    end.
Proof.
  unfold spread, Object_assign. destruct (default ∅ opts !! k) as [v|] eqn:E.
  - by apply lookup_union_Some_l.
  - by rewrite lookup_union_r.
Qed.

#[local] Ltac all_serialisable :=
  repeat first
    [ assumption
    | reflexivity
    | apply spread_serialisable
    | apply map_Forall_insert_2
    | apply map_Forall_singleton
    | apply map_Forall_empty
    | apply serialisable_default_param ].

Section Methods.

Variable JSON_parse : string -> option json.
Variable axios_request : AxiosRequestConfig.t -> Promise AxiosResponse.t.

#[local] Abbreviation _send := (_send JSON_parse axios_request).
#[local] Abbreviation chain := (chain JSON_parse axios_request).
#[local] Abbreviation frontiers := (frontiers JSON_parse axios_request).
#[local] Abbreviation history := (history JSON_parse axios_request).
#[local] Abbreviation ledger := (ledger JSON_parse axios_request).
#[local] Abbreviation blocks_info := (blocks_info JSON_parse axios_request).
#[local] Abbreviation account_history := (account_history JSON_parse axios_request).
#[local] Abbreviation account_info := (account_info JSON_parse axios_request).
#[local] Abbreviation representatives := (representatives JSON_parse axios_request).

Lemma send_field c method (params : gmap string value) k j :
  map_Forall (fun _ v => serialisable v) params ->
  envelope method params !! k ≫= json_property = j ->
  sends_field (_send method (Some params)) c k j.
Proof. intros H <-. by apply send_sends_field. Qed.

Lemma bodies_send_no_params c method :
  bodies (_send method None) c = [JObj {[ "action" := JStr method ]}].
Proof.
  unfold bodies.
  by rewrite (requests_send_normal _ _ _ _ _ _ (buildRPCBody_no_params method)).
Qed.

(** C6: whatever [count] and [sorting] are, [representatives] sends the
    body [{action: "representatives"}], which has neither a [count] nor a
    [sorting] field. *)
Theorem representatives_ignores_arguments c count sorting :
  bodies (representatives count sorting) c
  = [JObj {[ "action" := JStr "representatives" ]}]
  /\ sends_field (representatives count sorting) c "count" None
  /\ sends_field (representatives count sorting) c "sorting" None.
Proof.
  unfold representatives. cbv zeta.
  pose proof (bodies_send_no_params c "representatives") as H.
  split; [exact H|]. split; eexists; (split; [exact H|reflexivity]).
Qed.

(** C1 (the call that breaks it): [representatives(3, true)] sends the
    body [{action: "representatives"}]; the arguments that were supplied
    are not in it. *)
Theorem representatives_3_true_body c :
  bodies (representatives (VNum 3) (VBool true)) c
  = [JObj {[ "action" := JStr "representatives" ]}]
  /\ bodies (representatives (VNum 3) (VBool true)) c
     <> [JObj {[ "action" := JStr "representatives";
                 "count" := JNum 3; "sorting" := JBool true ]}].
Proof.
  unfold representatives. cbv zeta.
  rewrite bodies_send_no_params. split; [reflexivity|].
  intros H.
  apply (f_equal (fun l => match l with
                           | [JObj fields] => fields !! "count"
                           | _ => None
                           end)) in H.
  vm_compute in H. discriminate.
Qed.

(** C7, amended: a positional [count] that is omitted is sent as 1
    ([chain], [frontiers], [history], [ledger], and [account_history]
    unless the options object brings its own [count]); a positional flag
    that is omitted is sent as false ([ledger], [blocks_info]); a flag of
    the trailing options object of [account_history] or [account_info]
    that is omitted is not sent at all. *)
Theorem omitted_parameter_defaults c
    (x count representative weight pending sorting source : value)
    (opts : option (gmap string value)) :
  serialisable x -> serialisable count ->
  serialisable representative -> serialisable weight ->
  serialisable pending -> serialisable sorting -> serialisable source ->
  map_Forall (fun _ v => serialisable v) (default ∅ opts) ->
  (sends_field (chain x VUndefined) c "count" (Some (JNum 1))
   /\ sends_field (frontiers x VUndefined) c "count" (Some (JNum 1))
   /\ sends_field (history x VUndefined) c "count" (Some (JNum 1))
   /\ sends_field (ledger x VUndefined representative weight pending sorting) c
        "count" (Some (JNum 1))
   /\ (default ∅ opts !! "count" = None ->
       sends_field (account_history x VUndefined opts) c "count" (Some (JNum 1))))
  /\ (sends_field (ledger x count VUndefined weight pending sorting) c
        "representative" (Some (JBool false))
      /\ sends_field (ledger x count representative VUndefined pending sorting) c
           "weight" (Some (JBool false))
      /\ sends_field (ledger x count representative weight VUndefined sorting) c
           "pending" (Some (JBool false))
      /\ sends_field (ledger x count representative weight pending VUndefined) c
           "sorting" (Some (JBool false))
      /\ sends_field (blocks_info x VUndefined pending) c
           "source" (Some (JBool false))
      /\ sends_field (blocks_info x source VUndefined) c
           "pending" (Some (JBool false)))
  /\ (forall flag,
        default ∅ opts !! flag = None ->
        flag <> "action" -> flag <> "account" -> flag <> "count" ->
        sends_field (account_history x count opts) c flag None
        /\ sends_field (account_info x opts) c flag None).
Proof.
  intros Hx Hcount Hrep Hweight Hpending Hsorting Hsource Hopts.
  split; [|split].
  - repeat split; try (apply send_field; [all_serialisable | reflexivity]).
    intros Hc. apply send_field; [all_serialisable|].
    by rewrite envelope_lookup, spread_lookup, Hc.
  - repeat split; apply send_field; (all_serialisable || reflexivity).
  - intros flag Hflag Haction Haccount Hcnt.
    split; (apply send_field; [all_serialisable|]);
      rewrite envelope_lookup, spread_lookup, Hflag.
    + rewrite lookup_insert_ne by done. rewrite lookup_singleton_ne by done.
      by case_decide.
    + rewrite lookup_singleton_ne by done. by case_decide.
Qed.

Lemma bodies_send c method params body :
  _buildRPCBody method params = Normal body ->
  bodies (_send method params) c = [body].
Proof.
  intros H. unfold bodies. by rewrite (requests_send_normal _ _ _ _ _ _ H).
Qed.

(** The two request bodies the specification spells out. *)
Example account_history_body c :
  bodies (account_history (VStr "nano_1abc") (VNum 2)
            (Some {[ "raw" := VBool true ]})) c
  = [JObj {[ "action" := JStr "account_history";
             "account" := JStr "nano_1abc";
             "count" := JNum 2;
             "raw" := JBool true ]}].
Proof. by apply bodies_send. Qed.

Example mrai_to_raw_body c :
  bodies (mrai_to_raw JSON_parse axios_request (VNum 5)) c
  = [JObj {[ "action" := JStr "mrai_to_raw"; "amount" := JNum 5 ]}].
Proof. by apply bodies_send. Qed.

(** [ledger], unlike [representatives], forwards [count] and [sorting]. *)
Example ledger_forwards_count_and_sorting c :
  bodies (ledger (VStr "nano_1abc") (VNum 3) VUndefined VUndefined VUndefined
            (VBool true)) c
  = [JObj {[ "action" := JStr "ledger";
             "account" := JStr "nano_1abc";
             "count" := JNum 3;
             "representative" := JBool false;
             "weight" := JBool false;
             "pending" := JBool false;
             "sorting" := JBool true ]}].
Proof. by apply bodies_send. Qed.

(** X11: every method tags its body with the name of its action, as long as
    its arguments serialise and no options object brings an "action" entry
    of its own. *)
Lemma action_tags c (a b d e f g : value) (opts : option (gmap string value)) :
  serialisable a -> serialisable b -> serialisable d ->
  serialisable e -> serialisable f -> serialisable g ->
  map_Forall (fun _ v => serialisable v) (default ∅ opts) ->
  default ∅ opts !! "action" = None ->
  let tagged {A} (call : M A) (name : string) :=
    sends_field call c "action" (Some (JStr name)) in
  tagged (account_balance JSON_parse axios_request a) "account_balance"
  /\ tagged (account_block_count JSON_parse axios_request a) "account_block_count"
  /\ tagged (account_get JSON_parse axios_request a) "account_get"
  /\ tagged (account_history a b opts) "account_history"
  /\ tagged (account_info a opts) "account_info"
  /\ tagged (account_key JSON_parse axios_request a) "account_key"
  /\ tagged (account_representative JSON_parse axios_request a) "account_representative"
  /\ tagged (account_weight JSON_parse axios_request a) "account_weight"
  /\ tagged (available_supply JSON_parse axios_request) "available_supply"
  /\ tagged (block JSON_parse axios_request a) "block"
  /\ tagged (blocks JSON_parse axios_request a) "blocks"
  /\ tagged (block_account JSON_parse axios_request a) "block_account"
  /\ tagged (block_count JSON_parse axios_request) "block_count"
  /\ tagged (blocks_info a b d) "blocks_info"
  /\ tagged (block_count_type JSON_parse axios_request) "block_count_type"
  /\ tagged (chain a b) "chain"
  /\ tagged (frontiers a b) "frontiers"
  /\ tagged (frontiers_count JSON_parse axios_request) "frontiers_count"
  /\ tagged (history a b) "history"
  /\ tagged (mrai_from_raw JSON_parse axios_request a) "mrai_from_raw"
  /\ tagged (mrai_to_raw JSON_parse axios_request a) "mrai_to_raw"
  /\ tagged (krai_from_raw JSON_parse axios_request a) "krai_from_raw"
  /\ tagged (krai_to_raw JSON_parse axios_request a) "krai_to_raw"
  /\ tagged (rai_from_raw JSON_parse axios_request a) "rai_from_raw"
  /\ tagged (rai_to_raw JSON_parse axios_request a) "rai_to_raw"
  /\ tagged (ledger a b d e f g) "ledger"
  /\ tagged (block_create JSON_parse axios_request a b d e f) "block_create"
  /\ tagged (process JSON_parse axios_request a) "process"
  /\ tagged (representatives a b) "representatives".
Proof.
  intros Ha Hb Hd He Hf Hg Hopts Hact tagged. unfold tagged.
  assert (Hnone : forall name,
             sends_field (_send name None) c "action" (Some (JStr name))).
  { intros name. eexists. split; [apply bodies_send_no_params|reflexivity]. }
  unfold account_balance, account_block_count, account_get, account_history,
    account_info, account_key, account_representative, account_weight,
    available_supply, block, blocks, block_account, block_count, blocks_info,
    block_count_type, chain, frontiers, frontiers_count, history,
    mrai_from_raw, mrai_to_raw, krai_from_raw, krai_to_raw, rai_from_raw,
    rai_to_raw, ledger, block_create, process, representatives.
  cbv zeta.
  repeat apply conj;
    lazymatch goal with
    | |- sends_field (_ _ _ _ None) _ _ _ => apply Hnone
    | |- sends_field (_ _ _ _ (Some _)) _ _ _ =>
        apply send_field;
        [ all_serialisable
        | rewrite envelope_lookup, ?spread_lookup, ?Hact; reflexivity ]
    end.
Qed.

End Methods.

Lemma omitted_parameter_defaults_witness :
  let x := VStr "nano_1abc" in
  let opts : option (gmap string value) := Some {[ "raw" := VBool true ]} in
  let call := account_history Sample.JSON_parse (Sample.node JNull) in
  serialisable x
  /\ serialisable (VNum 5)
  /\ serialisable (VBool true)
  /\ map_Forall (fun _ v => serialisable v) (default ∅ opts)
  /\ default ∅ opts !! "count" = None
  /\ default ∅ opts !! "reverse" = None
  /\ sends_field (call x VUndefined opts) Sample.client "count" (Some (JNum 1))
  /\ sends_field (call x (VNum 5) opts) Sample.client "reverse" None.
Proof.
  intros x opts call.
  assert (Hopts : map_Forall (fun _ v => serialisable v) (default ∅ opts)).
  { apply (bool_decide_unpack _). vm_compute. exact I. }
  do 3 (split; [reflexivity|]). split; [exact Hopts|].
  do 2 (split; [reflexivity|]).
  destruct (omitted_parameter_defaults Sample.JSON_parse (Sample.node JNull)
              Sample.client x (VNum 5) (VBool true) (VBool true) (VBool true)
              (VBool true) (VBool true) opts
              eq_refl eq_refl eq_refl eq_refl eq_refl eq_refl eq_refl Hopts)
    as ((_ & _ & _ & _ & Hcount) & _ & Hflags).
  split; [exact (Hcount eq_refl)|].
  refine (proj1 (Hflags "reverse" eq_refl _ _ _)); discriminate.
Defined.

(** [account_history] called without [raw]: the body has no [raw] field, so
    the flag is not sent as false. *)
Lemma account_history_omitted_flag_absent :
  let call :=
    account_history Sample.JSON_parse (Sample.node JNull)
      (VStr "nano_1abc") VUndefined None in
  bodies call Sample.client
  = [JObj {[ "action" := JStr "account_history";
             "account" := JStr "nano_1abc";
             "count" := JNum 1 ]}]
  /\ sends_field call Sample.client "raw" None
  /\ ~ sends_field call Sample.client "raw" (Some (JBool false)).
Proof.
  intros call.
  assert (H : bodies call Sample.client
              = [JObj {[ "action" := JStr "account_history";
                         "account" := JStr "nano_1abc";
                         "count" := JNum 1 ]}]) by reflexivity.
  split; [exact H|]. split.
  - eexists. split; [exact H|reflexivity].
  - intros (fields & Hb & Hf). rewrite H in Hb.
    assert (Heq : fields = {[ "action" := JStr "account_history";
                              "account" := JStr "nano_1abc";
                              "count" := JNum 1 ]}) by congruence.
    rewrite Heq in Hf. vm_compute in Hf. discriminate.
Qed.

(** ** Further properties of the client *)

Lemma request_of_merged c body : request_of (merged c) body = request_of c body.
Proof.
  unfold request_of, merged, Object_assign. cbn.
  by rewrite (assoc_L (∪)), (idemp_L (∪)).
Qed.

Lemma buildRPCBody_cases action params :
  (exists body, _buildRPCBody action params = Normal body)
  \/ (_buildRPCBody action params = Throw (Error TypeError)
      /\ exists p k v, params = Some p /\ p !! k = Some v /\ ~ serialisable v).
Proof.
  destruct params as [p|].
  - destruct (decide (map_Forall (fun _ v => serialisable v) p)) as [H|H].
    + left. eexists. by apply buildRPCBody_normal.
    + right. apply map_not_Forall in H; [|tc_solve].
      destruct H as (k & v & Hk & Hv). split; [by eapply buildRPCBody_throw|].
      by exists p, k, v.
  - left. eexists. apply buildRPCBody_no_params.
Qed.

(** X3: [_buildRPCBody] throws exactly when some parameter value cannot be
    serialised, and what it throws is always a new [Error] wrapped around
    the TypeError of [JSON.stringify]; without a parameter object it never
    throws. *)
Theorem buildRPCBody_throws_iff action params e :
  _buildRPCBody action params = Throw e
  <-> e = Error TypeError
      /\ exists p k v, params = Some p /\ p !! k = Some v /\ ~ serialisable v.
Proof.
  split.
  - intros H. destruct (buildRPCBody_cases action params)
      as [[body Hb]|[Ht Hex]]; [congruence|].
    split; [congruence|exact Hex].
  - intros (-> & p & k & v & -> & Hk & Hv). by eapply buildRPCBody_throw.
Qed.

Lemma buildRPCBody_throws_iff_witness :
  (exists p k v, Some Sample.cyclic = Some p /\ p !! k = Some v /\ ~ serialisable v)
  /\ _buildRPCBody "account_info" (Some Sample.cyclic) = Throw (Error TypeError).
Proof.
  assert (H : exists p k v, Some Sample.cyclic = Some p /\ p !! k = Some v
                            /\ ~ serialisable v).
  { exists Sample.cyclic, "self", VCircular. by repeat split. }
  split; [exact H|].
  exact (proj2 (buildRPCBody_throws_iff "account_info" (Some Sample.cyclic)
                  (Error TypeError)) (conj eq_refl H)).
Defined.

(** X5: the request a call hands to the transport (method, URL, body and
    headers) is the same whether or not another call was made on the
    instance before, whatever that earlier call was and whatever the
    transport answered to it. *)
Theorem request_independent_of_earlier_call
    (JSON_parse1 JSON_parse2 : string -> option json)
    (axios_request1 axios_request2 : AxiosRequestConfig.t -> Promise AxiosResponse.t)
    c method1 params1 method2 params2 :
  let c' := after (_send JSON_parse1 axios_request1 method1 params1) c in
  requests (_send JSON_parse2 axios_request2 method2 params2) c'
  = requests (_send JSON_parse2 axios_request2 method2 params2) c.
Proof.
  cbv zeta. destruct (_buildRPCBody method1 params1) as [body1|e1] eqn:E1.
  2:{ by rewrite (after_send_throw _ _ _ _ _ _ E1). }
  rewrite (after_send_normal _ _ _ _ _ _ E1).
  destruct (_buildRPCBody method2 params2) as [body2|e2] eqn:E2.
  - rewrite !(requests_send_normal _ _ _ _ _ _ E2).
    by rewrite request_of_merged.
  - unfold requests.
    by rewrite !(run_send_throw JSON_parse2 axios_request2 _ _ _ _ E2).
Qed.

Section Further.

Variable JSON_parse : string -> option json.
Variable axios_request : AxiosRequestConfig.t -> Promise AxiosResponse.t.

#[local] Abbreviation _send := (_send JSON_parse axios_request).

(** X1: a failure of the transport is passed on as it is: when the promise
    of [axios.request] is rejected, the call is rejected with the same
    value, and while it stays pending the call stays pending (there is no
    timeout and no retry). *)
Theorem send_mirrors_transport_failure c method params body :
  _buildRPCBody method params = Normal body ->
  (forall r, axios_request (request_of c body) = Rejected r ->
             returned (_send method params) c = Normal (Rejected r))
  /\ (axios_request (request_of c body) = Pending ->
      returned (_send method params) c = Normal Pending).
Proof.
  intros Hbody.
  destruct (run_send_normal JSON_parse axios_request c _ _ _ Hbody)
    as (p & Hrun & Hp).
  unfold returned. rewrite Hrun. cbn.
  split; [intros r Hax | intros Hax]; rewrite Hax in Hp; by rewrite Hp.
Qed.

(** X2: [_send] always returns a promise, and it hands the transport one
    request when the body serialises and none when it does not, however the
    transport answers. *)
Theorem send_returns_promise_one_request c method params :
  (exists p, returned (_send method params) c = Normal p)
  /\ length (requests (_send method params) c)
     = (if is_normal (_buildRPCBody method params) then 1%nat else 0%nat).
Proof.
  destruct (_buildRPCBody method params) as [body|e] eqn:E; cbn.
  - destruct (run_send_normal JSON_parse axios_request c _ _ _ E)
      as (p & Hrun & _).
    unfold returned, requests. rewrite Hrun. cbn. eauto.
  - unfold returned, requests.
    rewrite (run_send_throw JSON_parse axios_request c _ _ _ E). cbn. eauto.
Qed.

(** X4: a parameter whose value is [undefined] does not appear in the body
    that is sent; this includes an "action" entry, which then removes the
    action tag. *)
Theorem undefined_parameter_is_dropped c method (params : gmap string value) k :
  map_Forall (fun _ v => serialisable v) params ->
  params !! k = Some VUndefined ->
  sends_field (_send method (Some params)) c k None.
Proof.
  intros Hall Hk. exists (omap json_property (envelope method params)). split.
  - unfold bodies.
    by rewrite (requests_send_normal _ _ _ _ _ _ (buildRPCBody_normal method params Hall)).
  - by rewrite lookup_omap, envelope_lookup, Hk.
Qed.

(** X6: a call resolves only when the transport fulfilled; the value it
    resolves with is either the data as received, which then is not a string
    and has no truthy [error] property, or the decoding of a string that was
    received. *)
Theorem send_resolved_inversion c method params v :
  returned (_send method params) c = Normal (Fulfilled v) ->
  exists body response,
    _buildRPCBody method params = Normal body
    /\ axios_request (request_of c body) = Fulfilled response
    /\ ((AxiosResponse.data response = v
         /\ (forall s, v <> JStr s)
         /\ exists err, get_member v "error" = Normal err /\ truthy err = false)
        \/ (exists s, AxiosResponse.data response = JStr s
                      /\ JSON_parse s = Some v)).
Proof.
  intros H. destruct (_buildRPCBody method params) as [body|e] eqn:E.
  2:{ unfold returned in H.
      rewrite (run_send_throw JSON_parse axios_request c _ _ _ E) in H.
      discriminate. }
  destruct (run_send_normal JSON_parse axios_request c _ _ _ E)
    as (p & Hrun & Hp).
  unfold returned in H. rewrite Hrun in H. cbn in H. injection H as ->.
  exists body. destruct (axios_request (request_of c body)) as [|response|r];
    [discriminate| |discriminate].
  exists response. split; [reflexivity|]. split; [reflexivity|].
  cbv zeta in Hp.
  destruct (get_member (AxiosResponse.data response) "error") as [err|e] eqn:Em;
    [|discriminate].
  destruct (truthy err) eqn:Et; [discriminate|].
  destruct (AxiosResponse.data response) as [| | |s| |] eqn:Ed;
    cbn in Hp, Em; try discriminate;
    try (left; injection Hp as ->; split; [reflexivity|];
         split; [discriminate|]; exists err; split; [exact Em|exact Et]).
  right. exists s. split; [reflexivity|].
  destruct (JSON_parse s); [by injection Hp as ->|discriminate].
Qed.

End Further.

Lemma send_mirrors_transport_failure_witness :
  let body := JObj {[ "action" := JStr "block_count" ]} in
  _buildRPCBody "block_count" None = Normal body
  /\ Transports.refusing "ECONNREFUSED" (request_of Sample.client body)
     = Rejected (RTransport "ECONNREFUSED")
  /\ returned (_send Sample.JSON_parse (Transports.refusing "ECONNREFUSED")
                 "block_count" None) Sample.client
     = Normal (Rejected (RTransport "ECONNREFUSED")).
Proof.
  intros body. do 2 (split; [reflexivity|]).
  exact (proj1 (send_mirrors_transport_failure Sample.JSON_parse
                  (Transports.refusing "ECONNREFUSED") Sample.client
                  "block_count" None body eq_refl)
           (RTransport "ECONNREFUSED") eq_refl).
Defined.

Lemma undefined_parameter_is_dropped_witness :
  let params : gmap string value := {[ "account" := VUndefined ]} in
  map_Forall (fun _ v => serialisable v) params
  /\ params !! "account" = Some VUndefined
  /\ sends_field (account_balance Sample.JSON_parse Transports.silent VUndefined)
       Sample.client "account" None.
Proof.
  intros params.
  assert (Hall : map_Forall (fun _ v => serialisable v) params).
  { apply (bool_decide_unpack _). vm_compute. exact I. }
  split; [exact Hall|]. split; [reflexivity|].
  exact (undefined_parameter_is_dropped Sample.JSON_parse Transports.silent
           Sample.client "account_balance" params "account" Hall eq_refl).
Defined.

Lemma send_resolved_inversion_witness :
  let reply := JObj {[ "count" := JStr "1000" ]} in
  returned (_send Sample.JSON_parse (Sample.node reply) "block_count" None)
    Sample.client = Normal (Fulfilled reply)
  /\ exists body response,
       _buildRPCBody "block_count" None = Normal body
       /\ Sample.node reply (request_of Sample.client body) = Fulfilled response.
Proof.
  intros reply.
  assert (H : returned (_send Sample.JSON_parse (Sample.node reply)
                          "block_count" None) Sample.client
              = Normal (Fulfilled reply)) by reflexivity.
  split; [exact H|].
  destruct (send_resolved_inversion Sample.JSON_parse (Sample.node reply)
              Sample.client "block_count" None reply H)
    as (body & response & Hb & Hax & _).
  exists body, response. split; [exact Hb|exact Hax].
Defined.

(** *** Bodies of the methods *)

Lemma default_param_defined d v j : json_of v j -> default_param d v = v.
Proof. by destruct v. Qed.

Lemma json_of_serialisable v j : json_of v j -> serialisable v.
Proof. unfold json_of, serialisable. by intros ->. Qed.

Lemma buildRPCBody_empty action :
  _buildRPCBody action (Some ∅) = Normal (JObj {[ "action" := JStr action ]}).
Proof. exact (buildRPCBody_no_params action). Qed.

(** Adding a defined parameter to the parameter object adds its JSON to the
    body. *)
Lemma buildRPCBody_insert action key v j (params : gmap string value) fields :
  json_of v j ->
  _buildRPCBody action (Some params) = Normal (JObj fields) ->
  _buildRPCBody action (Some (<[key := v]> params))
  = Normal (JObj (<[key := j]> fields)).
Proof.
  intros Hv Hb.
  assert (Hall : map_Forall (fun _ x => serialisable x) params).
  { destruct (decide (map_Forall (fun _ x => serialisable x) params)) as [H|H];
      [done|].
    apply map_not_Forall in H; [|tc_solve]. destruct H as (k & x & Hk & Hx).
    rewrite (buildRPCBody_throw action params k x Hk Hx) in Hb. discriminate. }
  rewrite (buildRPCBody_normal action params Hall) in Hb. injection Hb as <-.
  rewrite buildRPCBody_normal.
  2:{ apply map_Forall_insert_2; [by eapply json_of_serialisable|done]. }
  do 2 f_equal. unfold envelope, spread, Object_assign. cbn [default from_option id].
  rewrite <- insert_union_l. apply omap_insert_Some.
  unfold json_property. by rewrite Hv.
Qed.

Lemma buildRPCBody_singleton action key v j :
  json_of v j ->
  _buildRPCBody action (Some {[ key := v ]})
  = Normal (JObj {[ key := j; "action" := JStr action ]}).
Proof.
  intros Hv. rewrite <- insert_empty.
  by apply buildRPCBody_insert; [|apply buildRPCBody_empty].
Qed.

#[local] Ltac literal_body :=
  apply bodies_send; cbv zeta;
  repeat match goal with
         | H : json_of ?v _ |- context [default_param ?d ?v] =>
             rewrite (default_param_defined d v _ H)
         end;
  repeat lazymatch goal with
         | |- _buildRPCBody _ (Some (<[_ := _]> _)) = _ =>
             eapply buildRPCBody_insert; [eassumption|]
         end;
  apply buildRPCBody_singleton; assumption.

Section Bodies.

Variable JSON_parse : string -> option json.
Variable axios_request : AxiosRequestConfig.t -> Promise AxiosResponse.t.

#[local] Abbreviation _send := (_send JSON_parse axios_request).

(** X7: a method with one parameter sends exactly the action tag and that
    parameter, under the name the source gives it ([account], [key], [hash],
    [hashes], [amount] or [block]); the value is not inspected. *)
Theorem single_parameter_bodies c (a : value) (j : json) :
  json_of a j ->
  let sends {A} (call : M A) (name key : string) :=
    bodies call c = [JObj {[ key := j; "action" := JStr name ]}] in
  sends (account_balance JSON_parse axios_request a) "account_balance" "account"
  /\ sends (account_block_count JSON_parse axios_request a) "account_block_count" "account"
  /\ sends (account_get JSON_parse axios_request a) "account_get" "key"
  /\ sends (account_key JSON_parse axios_request a) "account_key" "account"
  /\ sends (account_representative JSON_parse axios_request a)
       "account_representative" "account"
  /\ sends (account_weight JSON_parse axios_request a) "account_weight" "account"
  /\ sends (block JSON_parse axios_request a) "block" "hash"
  /\ sends (blocks JSON_parse axios_request a) "blocks" "hashes"
  /\ sends (block_account JSON_parse axios_request a) "block_account" "hash"
  /\ sends (mrai_from_raw JSON_parse axios_request a) "mrai_from_raw" "amount"
  /\ sends (mrai_to_raw JSON_parse axios_request a) "mrai_to_raw" "amount"
  /\ sends (krai_from_raw JSON_parse axios_request a) "krai_from_raw" "amount"
  /\ sends (krai_to_raw JSON_parse axios_request a) "krai_to_raw" "amount"
  /\ sends (rai_from_raw JSON_parse axios_request a) "rai_from_raw" "amount"
  /\ sends (rai_to_raw JSON_parse axios_request a) "rai_to_raw" "amount"
  /\ sends (process JSON_parse axios_request a) "process" "block".
Proof.
  intros Ha sends. unfold sends.
  unfold account_balance, account_block_count, account_get, account_key,
    account_representative, account_weight, block, blocks, block_account,
    mrai_from_raw, mrai_to_raw, krai_from_raw, krai_to_raw, rai_from_raw,
    rai_to_raw, process.
  repeat apply conj; literal_body.
Qed.

(** X8: a method without parameters sends a body that consists of the
    action tag alone. *)
Theorem parameterless_bodies c :
  bodies (available_supply JSON_parse axios_request) c
  = [JObj {[ "action" := JStr "available_supply" ]}]
  /\ bodies (block_count JSON_parse axios_request) c
     = [JObj {[ "action" := JStr "block_count" ]}]
  /\ bodies (block_count_type JSON_parse axios_request) c
     = [JObj {[ "action" := JStr "block_count_type" ]}]
  /\ bodies (frontiers_count JSON_parse axios_request) c
     = [JObj {[ "action" := JStr "frontiers_count" ]}].
Proof.
  unfold available_supply, block_count, block_count_type, frontiers_count.
  repeat apply conj; apply bodies_send_no_params.
Qed.

(** X9: when every argument is supplied (any value with a JSON, [null]
    included), the methods with several parameters send exactly the action
    tag and the arguments under the names of the source; no default steps in
    and nothing is validated. *)
Theorem supplied_arguments_bodies c (a b d e f : value) (g : value)
    (ja jb jd je jf jg : json) :
  json_of a ja -> json_of b jb -> json_of d jd ->
  json_of e je -> json_of f jf -> json_of g jg ->
  bodies (chain JSON_parse axios_request a b) c
  = [JObj {[ "count" := jb; "block" := ja; "action" := JStr "chain" ]}]
  /\ bodies (frontiers JSON_parse axios_request a b) c
     = [JObj {[ "count" := jb; "account" := ja; "action" := JStr "frontiers" ]}]
  /\ bodies (history JSON_parse axios_request a b) c
     = [JObj {[ "count" := jb; "hash" := ja; "action" := JStr "history" ]}]
  /\ bodies (blocks_info JSON_parse axios_request a b d) c
     = [JObj {[ "pending" := jd; "source" := jb; "hashes" := ja;
                "action" := JStr "blocks_info" ]}]
  /\ bodies (ledger JSON_parse axios_request a b d e f g) c
     = [JObj {[ "sorting" := jg; "pending" := jf; "weight" := je;
                "representative" := jd; "count" := jb; "account" := ja;
                "action" := JStr "ledger" ]}]
  /\ bodies (block_create JSON_parse axios_request a b d e f) c
     = [JObj {[ "source" := jf; "representative" := je; "account" := jd;
                "key" := jb; "type" := ja; "action" := JStr "block_create" ]}].
Proof.
  intros Ha Hb Hd He Hf Hg.
  unfold chain, frontiers, history, blocks_info, ledger, block_create.
  repeat apply conj; literal_body.
Qed.

(** X10: every entry of the options object of [account_history] and
    [account_info] is sent as given, also where it has the name of a
    positional parameter ([account], [count]) or of the action tag, which it
    then replaces. *)
Theorem options_entries_are_sent c (x count : value) (opts : gmap string value) k v :
  serialisable x -> serialisable count ->
  map_Forall (fun _ y => serialisable y) opts ->
  opts !! k = Some v ->
  sends_field (account_history JSON_parse axios_request x count (Some opts)) c k
    (json_property v)
  /\ sends_field (account_info JSON_parse axios_request x (Some opts)) c k
       (json_property v).
Proof.
  intros Hx Hcount Hopts Hk. unfold account_history, account_info. cbv zeta.
  split; (apply send_field; [all_serialisable|]);
    by rewrite envelope_lookup, spread_lookup; cbn [default from_option id];
       rewrite Hk.
Qed.

End Bodies.

Lemma single_parameter_bodies_witness :
  json_of (VNum 5) (JNum 5)
  /\ bodies (mrai_to_raw Sample.JSON_parse Transports.silent (VNum 5)) Sample.client
     = [JObj {[ "amount" := JNum 5; "action" := JStr "mrai_to_raw" ]}].
Proof.
  split; [reflexivity|].
  pose proof (single_parameter_bodies Sample.JSON_parse Transports.silent
                Sample.client (VNum 5) (JNum 5) eq_refl) as H.
  cbv zeta in H.
  exact (proj1 (proj2 (proj2 (proj2 (proj2 (proj2 (proj2 (proj2 (proj2 (proj2
           (proj2 H))))))))))).
Defined.

Lemma supplied_arguments_bodies_witness :
  json_of (VStr "nano_1abc") (JStr "nano_1abc")
  /\ json_of VNull JNull
  /\ json_of (VBool true) (JBool true)
  /\ bodies (chain Sample.JSON_parse Transports.silent (VStr "nano_1abc") VNull)
       Sample.client
     = [JObj {[ "count" := JNull; "block" := JStr "nano_1abc";
                "action" := JStr "chain" ]}].
Proof.
  do 3 (split; [reflexivity|]).
  exact (proj1 (supplied_arguments_bodies Sample.JSON_parse Transports.silent
                  Sample.client (VStr "nano_1abc") VNull (VBool true)
                  (VBool true) (VBool true) (VBool true)
                  (JStr "nano_1abc") JNull (JBool true) (JBool true)
                  (JBool true) (JBool true)
                  eq_refl eq_refl eq_refl eq_refl eq_refl eq_refl)).
Defined.

Lemma options_entries_are_sent_witness :
  let opts : gmap string value :=
    {[ "account" := VStr "nano_3xyz"; "raw" := VBool true ]} in
  serialisable (VStr "nano_1abc")
  /\ serialisable (VNum 2)
  /\ map_Forall (fun _ y => serialisable y) opts
  /\ opts !! "account" = Some (VStr "nano_3xyz")
  /\ sends_field (account_history Sample.JSON_parse Transports.silent
                    (VStr "nano_1abc") (VNum 2) (Some opts))
       Sample.client "account" (Some (JStr "nano_3xyz")).
Proof.
  intros opts.
  assert (Hopts : map_Forall (fun _ y => serialisable y) opts).
  { apply (bool_decide_unpack _). vm_compute. exact I. }
  do 2 (split; [reflexivity|]). split; [exact Hopts|]. split; [reflexivity|].
  exact (proj1 (options_entries_are_sent Sample.JSON_parse Transports.silent
                  Sample.client (VStr "nano_1abc") (VNum 2) opts "account"
                  (VStr "nano_3xyz") eq_refl eq_refl Hopts eq_refl)).
Defined.

Lemma action_tags_witness :
  let opts : option (gmap string value) := Some {[ "raw" := VBool true ]} in
  serialisable (VStr "nano_1abc")
  /\ map_Forall (fun _ v => serialisable v) (default ∅ opts)
  /\ default ∅ opts !! "action" = None
  /\ sends_field (account_info Sample.JSON_parse Transports.silent
                    (VStr "nano_1abc") opts)
       Sample.client "action" (Some (JStr "account_info")).
Proof.
  intros opts.
  assert (Hopts : map_Forall (fun _ v => serialisable v) (default ∅ opts)).
  { apply (bool_decide_unpack _). vm_compute. exact I. }
  split; [reflexivity|]. split; [exact Hopts|]. split; [reflexivity|].
  pose proof (action_tags Sample.JSON_parse Transports.silent Sample.client
                (VStr "nano_1abc") (VStr "nano_1abc") (VStr "nano_1abc")
                (VStr "nano_1abc") (VStr "nano_1abc") (VStr "nano_1abc") opts
                eq_refl eq_refl eq_refl eq_refl eq_refl eq_refl Hopts eq_refl)
    as H.
  cbv zeta in H.
  exact (proj1 (proj2 (proj2 (proj2 (proj2 H))))).
Defined.
